(** * LoveConnect backend: the matching logic of [src/models/User.js]

    Shallow embedding of the Mongoose [User] model: the methods
    [isGenderCompatibleWith], [distanceTo], [getPublicProfile], the [age]
    virtual and the static [findCompatibleUsers], together with a model of
    the MongoDB [find] that runs the query it builds; [distanceTo] also in
    binary64 arithmetic; the authentication middleware, the error handler
    and the [/me] routes. *)

From Stdlib Require Import PrimFloat.
From Stdlib Require FloatOps SpecFloat.
From Stdlib Require Import ZArith List Ascii String Bool Lia.
From Stdlib Require Import Reals Lra Sorted.
From stdpp Require Import base gmap strings.

Import ListNotations.
(** A decimal literal denotes the nearest binary64 float, as in JavaScript. *)
Set Warnings "-inexact-float".
Local Open Scope string_scope.
Local Open Scope Z_scope.

(** ** JavaScript values and completions *)

(** A JavaScript call either returns a value or throws; a thrown error is
    identified by its name. *)
Inductive Completion (A : Type) : Type :=
| Normal (v : A)
| Throw (name : string).
Arguments Normal {A} v.
Arguments Throw {A} name.

(** [Array.prototype.includes] on an array of strings. *)
Definition includes (arr : list string) (x : string) : bool :=
  existsb (String.eqb x) arr.

(** ** The document model (schema [userSchema]) *)

(** A GeoJSON point [{ type, coordinates }]; [coordinates] is [None] when the
    array is null or undefined.  Numbers are modelled as real numbers. *)
Record Point := mkPoint {
  type : string;
  coordinates : option (list R)
}.

Record MoodEntry := mkMoodEntry {
  mood : string;
  timestamp : Z  (** milliseconds since the epoch *)
}.

Record GenderIdentity := mkGenderIdentity {
  myGender : string;
  interestedIn : list string
}.

Record MoodSystem := mkMoodSystem {
  currentMood : string;
  moodHistory : list MoodEntry;
  moodExpiryHours : Z
}.

Record Preferences := mkPreferences {
  searchRadius : Z;
  ageRange_min : Z;
  ageRange_max : Z
}.

(** The stored fields the matching code reads or projects away.  Dates are
    milliseconds since the epoch. *)
Record User := mkUser {
  _id : Z;
  email : option string;
  password : option string;
  dateOfBirth : Z;
  genderIdentity : GenderIdentity;
  moodSystem : MoodSystem;
  location : Point;
  isActive : bool;
  isBanned : bool;
  lastSeen : Z;
  preferences : Preferences;
  refreshTokens : option (list string);
  passwordResetToken : option string;
  emailVerificationToken : option string
}.

(** ** [userSchema.methods.isGenderCompatibleWith] *)

Definition isGenderCompatibleWith (this otherUser : User) : bool :=
  let myInterestedIn := interestedIn (genderIdentity this) in
  let otherInterestedIn := interestedIn (genderIdentity otherUser) in
  let iAmInterestedInThem :=
    includes myInterestedIn (myGender (genderIdentity otherUser))
    || includes myInterestedIn "tous" in
  let theyAreInterestedInMe :=
    includes otherInterestedIn (myGender (genderIdentity this))
    || includes otherInterestedIn "tous" in
  iAmInterestedInThem && theyAreInterestedInMe.

(** ** Dates (ECMAScript [Date], server time zone UTC) *)

Definition msPerDay : Z := 86400000.

(** Days from 1970-01-01 to the civil date [y]-[m]-[d] ([m] in 1..12); linear
    in [d], so a day past the end of a month rolls over as in [MakeDay]. *)
Definition days_from_civil (y m d : Z) : Z :=
  let y' := if m <=? 2 then y - 1 else y in
  let era := y' / 400 in
  let yoe := y' - era * 400 in
  let mp := (m + 9) mod 12 in
  let doy := (153 * mp + 2) / 5 + d - 1 in
  let doe := yoe * 365 + yoe / 4 - yoe / 100 + doy in
  era * 146097 + doe - 719468.

(** The civil date [(year, month 1..12, day)] of a day number. *)
Definition civil_from_days (z : Z) : Z * Z * Z :=
  let z := z + 719468 in
  let era := z / 146097 in
  let doe := z - era * 146097 in
  let yoe := (doe - doe / 1460 + doe / 36524 - doe / 146096) / 365 in
  let y := yoe + era * 400 in
  let doy := doe - (365 * yoe + yoe / 4 - yoe / 100) in
  let mp := (5 * doy + 2) / 153 in
  let d := doy - (153 * mp + 2) / 5 + 1 in
  let m := if mp <? 10 then mp + 3 else mp - 9 in
  (if m <=? 2 then y + 1 else y, m, d).

(** [getFullYear()], [getMonth()] (0-based) and [getDate()] of a time value. *)
Definition getFullYear (t : Z) : Z := let '(y, _, _) := civil_from_days (t / msPerDay) in y.
Definition getMonth (t : Z) : Z := let '(_, m, _) := civil_from_days (t / msPerDay) in m - 1.
Definition getDate (t : Z) : Z := let '(_, _, d) := civil_from_days (t / msPerDay) in d.

(** [new Date(year, monthIndex, day)]: midnight of that local date; a year in
    0..99 means 1900+year, and the month index is normalised into the year. *)
Definition newDate (year monthIndex day : Z) : Z :=
  let year := if (0 <=? year) && (year <=? 99) then 1900 + year else year in
  let ym := year + monthIndex / 12 in
  let mn := monthIndex mod 12 in
  days_from_civil ym (mn + 1) day * msPerDay.

(** [365.25 * 24 * 60 * 60 * 1000], an integer. *)
Definition msPerJulianYear : Z := 31557600000.

(** The [age] virtual:
    [Math.floor((Date.now() - this.dateOfBirth.getTime()) / (365.25 * ...))].
    Both operands are integers far below 2^53, so the floating-point quotient
    floors to the integer quotient. *)
Definition age (now : Z) (this : User) : Z :=
  (now - dateOfBirth this) / msPerJulianYear.

(** ** [userSchema.statics.findCompatibleUsers] *)

(** The [options] bundle; [None] is an undefined property. *)
Record Options := mkOptions {
  opt_maxDistance : option Z;
  opt_ageMin : option Z;
  opt_ageMax : option Z;
  opt_mood : option string;
  opt_limit : option Z
}.

Definition no_options : Options := mkOptions None None None None None.

(** [x || d] on a number (NaN is not modelled). *)
Definition or_default (x d : Z) : Z := if x =? 0 then d else x.

(** JavaScript truthiness of a string. *)
Definition truthy (s : string) : bool := negb (String.eqb s "").

(** The query object built by [findCompatibleUsers] together with the
    [.select], [.limit] and [.sort({ lastSeen: -1 })] applied to it. *)
Record Query := mkQuery {
  q_id_ne : Z;                       (** [_id: { $ne: user._id }] *)
  q_isActive : bool;                 (** [isActive: true] *)
  q_isBanned : bool;                 (** [isBanned: false] *)
  q_geometry : Point;                (** [$near.$geometry] *)
  q_maxDistance : Z;                 (** [$near.$maxDistance] *)
  q_dob_gte : Z;                     (** [dateOfBirth.$gte] *)
  q_dob_lte : Z;                     (** [dateOfBirth.$lte] *)
  q_mood : option string;            (** ['moodSystem.currentMood'], if set *)
  q_select : list string;            (** the excluded paths of [.select] *)
  q_limit : Z                        (** [.limit(limit)] *)
}.

Definition findCompatibleUsers (now : Z) (user : User) (options : Options)
    : Completion Query :=
  let maxDistance := default (or_default (searchRadius (preferences user)) 10000)
                             (opt_maxDistance options) in
  let ageMin := default (or_default (ageRange_min (preferences user)) 18)
                        (opt_ageMin options) in
  let ageMax := default (or_default (ageRange_max (preferences user)) 35)
                        (opt_ageMax options) in
  let mood := opt_mood options in
  let limit := default 50 (opt_limit options) in
  let maxBirthDate := newDate (getFullYear now - ageMin) (getMonth now) (getDate now) in
  let minBirthDate := newDate (getFullYear now - ageMax) (getMonth now) (getDate now) in
  Normal {|
    q_id_ne := _id user;
    q_isActive := true;
    q_isBanned := false;
    q_geometry := location user;
    q_maxDistance := maxDistance;
    q_dob_gte := minBirthDate;
    q_dob_lte := maxBirthDate;
    q_mood := match mood with
              | Some m => if truthy m then Some m else None
              | None => None
              end;
    q_select := ["password"; "refreshTokens"; "passwordResetToken";
                 "emailVerificationToken"];
    q_limit := limit
  |}.

(** ** The storage collaborator: MongoDB [find] on the [users] collection

    The geospatial part of [$near] is the store's own computation; it is a
    parameter [near] of the model ([near center maxDistance point]).  The
    remaining predicates, the sort on [lastSeen] (descending), the limit
    (0 meaning no limit) and the exclusion projection are modelled. *)

Section Store.

Variable near : Point -> Z -> Point -> bool.

Definition matches (q : Query) (c : User) : bool :=
  negb (_id c =? q_id_ne q)
  && Bool.eqb (isActive c) (q_isActive q)
  && Bool.eqb (isBanned c) (q_isBanned q)
  && near (q_geometry q) (q_maxDistance q) (location c)
  && (q_dob_gte q <=? dateOfBirth c)
  && (dateOfBirth c <=? q_dob_lte q)
  && match q_mood q with
     | Some m => String.eqb (currentMood (moodSystem c)) m
     | None => true
     end.

Fixpoint insert_by_lastSeen (c : User) (l : list User) : list User :=
  match l with
  | [] => [c]
  | d :: l' => if lastSeen d <? lastSeen c then c :: d :: l'
               else d :: insert_by_lastSeen c l'
  end.

Fixpoint sort_lastSeen_desc (l : list User) : list User :=
  match l with
  | [] => []
  | c :: l' => insert_by_lastSeen c (sort_lastSeen_desc l')
  end.

Definition apply_limit (n : Z) (l : list User) : list User :=
  if n =? 0 then l else firstn (Z.abs_nat n) l.

(** The exclusion projection of [.select('-password -refreshTokens
    -passwordResetToken -emailVerificationToken')]. *)
Definition project (sel : list string) (c : User) : User :=
  {| _id := _id c;
     email := email c;
     password := if includes sel "password" then None else password c;
     dateOfBirth := dateOfBirth c;
     genderIdentity := genderIdentity c;
     moodSystem := moodSystem c;
     location := location c;
     isActive := isActive c;
     isBanned := isBanned c;
     lastSeen := lastSeen c;
     preferences := preferences c;
     refreshTokens := if includes sel "refreshTokens" then None else refreshTokens c;
     passwordResetToken :=
       if includes sel "passwordResetToken" then None else passwordResetToken c;
     emailVerificationToken :=
       if includes sel "emailVerificationToken" then None else emailVerificationToken c
  |}.

Definition exec (store : list User) (q : Query) : list User :=
  map (project (q_select q))
      (apply_limit (q_limit q) (sort_lastSeen_desc (List.filter (matches q) store))).

(** CandidateQuery: build the query and run it against the store. *)
Definition candidates (now : Z) (store : list User) (user : User)
    (options : Options) : Completion (list User) :=
  match findCompatibleUsers now user options with
  | Normal q => Normal (exec store q)
  | Throw e => Throw e
  end.

End Store.

(** ** [userSchema.methods.distanceTo]

    Arithmetic is exact real arithmetic: floating-point rounding is not
    modelled.  [Math.sqrt] is applied only to [a] and [1 - a], which lie in
    [0, 1] (lemma [haversine_a_bounds]), where it agrees with [sqrt]. *)

Section Distance.

Local Open Scope R_scope.

(** [Math.atan2(y, x)] (signed zeros are not modelled). *)
Definition atan2 (y x : R) : R :=
  if Rlt_dec 0 x then atan (y / x)
  else if Rlt_dec x 0 then
    (if Rle_dec 0 y then atan (y / x) + PI else atan (y / x) - PI)
  else if Rlt_dec 0 y then PI / 2
  else if Rlt_dec y 0 then - (PI / 2)
  else 0.

(** [Math.round(x)]: the nearest integer, halves rounded up. *)
Definition Math_round (x : R) : Z := Int_part (x + / 2).

(** The haversine term [a] of [distanceTo]. *)
Definition haversine_a (lon1 lat1 lon2 lat2 : R) : R :=
  let phi1 := lat1 * PI / 180 in
  let phi2 := lat2 * PI / 180 in
  let dphi := (lat2 - lat1) * PI / 180 in
  let dlambda := (lon2 - lon1) * PI / 180 in
  sin (dphi / 2) * sin (dphi / 2) +
  cos phi1 * cos phi2 * sin (dlambda / 2) * sin (dlambda / 2).

(** The central angle [c = 2 * Math.atan2(Math.sqrt(a), Math.sqrt(1 - a))]. *)
Definition central_angle (lon1 lat1 lon2 lat2 : R) : R :=
  let a := haversine_a lon1 lat1 lon2 lat2 in
  2 * atan2 (sqrt a) (sqrt (1 - a)).

(** The value returned by [distanceTo]: [null], a number, or [NaN]. *)
Inductive JsResult :=
| JNull
| JNum (n : Z)
| JNaN.

(** [this.distanceTo(otherUser)], given [this.location.coordinates] and
    [otherUser.location.coordinates].  Destructuring an array with fewer than
    two elements yields [undefined], which turns the arithmetic into [NaN]. *)
Definition distanceTo (these others : option (list R)) : JsResult :=
  match these, others with
  | Some c1, Some c2 =>
      match c1, c2 with
      | lon1 :: lat1 :: _, lon2 :: lat2 :: _ =>
          let R_earth := 6371000 in
          JNum (Math_round (R_earth * central_angle lon1 lat1 lon2 lat2))
      | _, _ => JNaN
      end
  | _, _ => JNull
  end.

(** A spherical [$near] test for the store model: the point lies within
    [maxDistance] meters of the center on a sphere of radius [radius].  A
    center without coordinates, on which MongoDB raises a [CastError] when
    the query runs, is modelled as matching nothing. *)
Definition sphere_near (radius : R) (center : Point) (maxDistance : Z)
    (p : Point) : bool :=
  match coordinates center, coordinates p with
  | Some (lon1 :: lat1 :: _), Some (lon2 :: lat2 :: _) =>
      if Rle_dec (radius * central_angle lon1 lat1 lon2 lat2) (IZR maxDistance)
      then true else false
  | _, _ => false
  end.

End Distance.

Arguments sphere_near : simpl never.

(** MongoDB's [$near] on GeoJSON points: spherical distance with the Earth
    radius [6378.1] km of its geometry code. *)
Definition mongo_near : Point -> Z -> Point -> bool := sphere_near 6378100.

(** ** [distanceTo] in binary64 arithmetic *)

(** JavaScript numbers are IEEE-754 binary64 floats.  ECMAScript leaves
    [Math.sin], [Math.cos] and [Math.atan2] implementation-approximated, so
    they are parameters; it fixes their NaN cases ([Math.atan2] of a NaN is
    NaN), [Math.sqrt] of a negative number (NaN) and [Math.round]. *)
Section Distance64.

Local Open Scope float_scope.

Variables js_sin js_cos : float -> float.
Variable js_atan2 : float -> float -> float.

(** [Math.PI]. *)
Definition Math_PI : float := 0x1.921fb54442d18p+1.

(** [Math.round(x)]: NaN, infinities and zeros are returned as they are;
    otherwise [floor(x + 1/2)], computed exactly, with the sign of [x] on a
    zero result. *)
Definition Math_round64 (x : float) : float :=
  match FloatOps.Prim2SF x with
  | SpecFloat.S754_finite s m e =>
      let v := if s then Z.neg m else Z.pos m in
      let n := if (0 <=? e)%Z then (v * 2 ^ e)%Z
               else ((2 * v + 2 ^ (- e)) / 2 ^ (1 - e))%Z in
      if (n =? 0)%Z then (if s then PrimFloat.neg_zero else PrimFloat.zero)
      else FloatOps.SF2Prim (SpecFloat.binary_normalize FloatOps.prec FloatOps.emax n 0 false)
  | _ => x
  end.

(** The haversine term [a] of [distanceTo], operation by operation. *)
Definition haversine_a64 (lon1 lat1 lon2 lat2 : float) : float :=
  let phi1 := lat1 * Math_PI / 180 in
  let phi2 := lat2 * Math_PI / 180 in
  let dphi := (lat2 - lat1) * Math_PI / 180 in
  let dlambda := (lon2 - lon1) * Math_PI / 180 in
  js_sin (dphi / 2) * js_sin (dphi / 2) +
  js_cos phi1 * js_cos phi2 * js_sin (dlambda / 2) * js_sin (dlambda / 2).

(** [c = 2 * Math.atan2(Math.sqrt(a), Math.sqrt(1 - a))]. *)
Definition central_angle64 (lon1 lat1 lon2 lat2 : float) : float :=
  let a := haversine_a64 lon1 lat1 lon2 lat2 in
  2 * js_atan2 (PrimFloat.sqrt a) (PrimFloat.sqrt (1 - a)).

(** [this.distanceTo(otherUser)]: [None] is [null]; a missing coordinate
    is [undefined] and makes the result NaN. *)
Definition distanceTo64 (these others : option (list float)) : option float :=
  match these, others with
  | Some c1, Some c2 =>
      Some (match c1, c2 with
            | lon1 :: lat1 :: _, lon2 :: lat2 :: _ =>
                Math_round64 (6371000 * central_angle64 lon1 lat1 lon2 lat2)
            | _, _ => nan
            end)
  | _, _ => None
  end.

End Distance64.

(** ** [userSchema.methods.getPublicProfile]

    [this.toObject()] is Mongoose's conversion of the document to a plain
    object (with virtuals); the method then deletes the sensitive keys. *)

Section PublicProfile.

Context {Doc V : Type} (toObject : Doc -> gmap string V).

Definition getPublicProfile (this : Doc) : gmap string V :=
  let user := toObject this in
  let user := delete "password" user in
  let user := delete "email" user in
  let user := delete "refreshTokens" user in
  let user := delete "passwordResetToken" user in
  let user := delete "passwordResetExpires" user in
  let user := delete "emailVerificationToken" user in
  let user := delete "emailVerificationExpires" user in
  user.

End PublicProfile.

Definition sensitive_fields : list string :=
  ["password"; "email"; "refreshTokens"; "passwordResetToken";
   "passwordResetExpires"; "emailVerificationToken"; "emailVerificationExpires"].

(** ** Photos: the second [pre('save')] hook and the [mainPhoto] virtual *)

Record Photo := mkPhoto {
  url : string;
  cloudinaryId : string;
  isMain : bool;
  uploadedAt : Z
}.

Definition set_isMain (b : bool) (p : Photo) : Photo :=
  mkPhoto (url p) (cloudinaryId p) b (uploadedAt p).

(** [this.photos.forEach((photo, index) => { photo.isMain = index === 0; })],
    from index [i] on. *)
Fixpoint forEach_isMain_index (i : nat) (photos : list Photo) : list Photo :=
  match photos with
  | [] => []
  | p :: rest => set_isMain (Nat.eqb i 0) p :: forEach_isMain_index (S i) rest
  end.

(** The hook's effect on [this.photos]. *)
Definition preSavePhotos (photos : list Photo) : list Photo :=
  if (0 <? length photos)%nat then
    let mainPhotos := List.filter isMain photos in
    if Nat.eqb (length mainPhotos) 0 then
      match photos with
      | [] => []
      | p :: rest => set_isMain true p :: rest      (** [this.photos[0].isMain = true] *)
      end
    else if (1 <? length mainPhotos)%nat then forEach_isMain_index 0 photos
    else photos
  else photos.

(** [this.photos.find(photo => photo.isMain) || this.photos[0] || null];
    [None] is [null]. *)
Definition mainPhoto (photos : list Photo) : option Photo :=
  match List.find isMain photos with
  | Some p => Some p
  | None => hd_error photos
  end.

(** ** [userSchema.methods.isInGhostMode] *)

Record GhostMode := mkGhostMode {
  ghost_isActive : bool;
  expiresAt : option Z;      (** [None]: undefined *)
  activatedAt : option Z
}.

(** The values an [&&] chain of the method can return. *)
Inductive JsVal := JsBool (b : bool) | JsUndefined.

Definition js_truthy (v : JsVal) : bool :=
  match v with JsBool b => b | JsUndefined => false end.

(** [this.ghostMode.isActive && this.ghostMode.expiresAt &&
     this.ghostMode.expiresAt > new Date()]: each [&&] returns its left
    operand when that is falsy (a [Date] object is always truthy). *)
Definition isInGhostMode (now : Z) (g : GhostMode) : JsVal :=
  if ghost_isActive g then
    match expiresAt g with
    | None => JsUndefined
    | Some t => JsBool (now <? t)
    end
  else JsBool false.

(** ** The [dateOfBirth] validator of the schema *)

Definition dateOfBirth_validator (now dob : Z) : bool :=
  let a := (now - dob) / msPerJulianYear in
  (18 <=? a) && (a <=? 100).

(** ** [middleware/auth.js] *)

(** [s] without the prefix [pat], if [pat] is a prefix of [s]. *)
Fixpoint strip_prefix (pat s : string) : option string :=
  match pat, s with
  | EmptyString, _ => Some s
  | String a pat', String b s' => if Ascii.eqb a b then strip_prefix pat' s' else None
  | String _ _, EmptyString => None
  end.

(** [s.replace(pat, '')] with a string pattern: the first occurrence of [pat]
    is removed, the rest of [s] is kept. *)
Fixpoint replace_first (pat s : string) : string :=
  match strip_prefix pat s with
  | Some rest => rest
  | None =>
      match s with
      | EmptyString => EmptyString
      | String c s' => String c (replace_first pat s')
      end
  end.

(** [User.findById(id).select('-password')] on a store of documents;
    [findById(undefined)] finds nothing. *)
Definition findById (store : list User) (id : option Z) : option User :=
  match id with
  | Some i => option_map (project ["password"]) (List.find (fun u => _id u =? i) store)
  | None => None
  end.

(** The two ends of the middleware: a 401 response with its message, or
    [next()] with [req.user] set. *)
Inductive AuthOutcome :=
| Unauthorized (message : string)
| NextWith (user : User).

(** [authMiddleware]: [verify] is [jwt.verify] with the server secret,
    returning the decoded [userId] (or [None] when the payload has none) or
    throwing; [header] is [req.header('Authorization')]. *)
Definition authMiddleware (verify : string -> Completion (option Z))
    (store : list User) (header : option string) : AuthOutcome :=
  match option_map (replace_first "Bearer ") header with
  | None => Unauthorized "Accès refusé. Token manquant."
  | Some token =>
      if negb (truthy token) then Unauthorized "Accès refusé. Token manquant."
      else
        match verify token with
        | Throw _ => Unauthorized "Token invalide."
        | Normal userId =>
            match findById store userId with
            | None => Unauthorized "Token invalide. Utilisateur non trouvé."
            | Some user => NextWith user
            end
        end
  end.

(** ** [middleware/errorHandler.js] *)

(** The fields of the error the handler reads: [name], the messages of
    [Object.values(error.errors)] in order ([None] when [errors] is
    undefined), [code], the keys of [keyValue] in order, [status] (a number
    or undefined), [message] (the empty string when undefined) and
    [stack]. *)
Record JsError := mkJsError {
  e_name : string;
  e_errors : option (list string);
  e_code : option Z;
  e_keyValue : option (list string);
  e_status : option Z;
  e_message : string;
  e_stack : string
}.

Inductive Json := JStr (s : string) | JStrs (l : list string) | JUndef.

Record Response := mkResponse {
  status : Z;
  body : list (string * Json)
}.

(** [errorHandler] given [process.env.NODE_ENV]; [Object.values] and
    [Object.keys] of [undefined] throw a [TypeError]. *)
Definition errorHandler (nodeEnv : option string) (error : JsError) : Completion Response :=
  if String.eqb (e_name error) "ValidationError" then
    match e_errors error with
    | None => Throw "TypeError"
    | Some errors =>
        Normal (mkResponse 400 [("error", JStr "Erreur de validation");
                                ("details", JStrs errors)])
    end
  else if match e_code error with Some c => c =? 11000 | None => false end then
    match e_keyValue error with
    | None => Throw "TypeError"
    | Some keys =>
        let field := hd_error keys in
        Normal (mkResponse 400
          [("error", JStr (default "undefined" field ++ " déjà utilisé"));
           ("field", match field with Some f => JStr f | None => JUndef end)])
    end
  else if String.eqb (e_name error) "JsonWebTokenError" then
    Normal (mkResponse 401 [("error", JStr "Token invalide")])
  else if String.eqb (e_name error) "TokenExpiredError" then
    Normal (mkResponse 401 [("error", JStr "Token expiré")])
  else
    Normal (mkResponse
      (match e_status error with Some st => or_default st 500 | None => 500 end)
      ([("error", JStr (if truthy (e_message error) then e_message error
                        else "Erreur serveur interne"))] ++
       (if option_eq_dec nodeEnv (Some "development") then [("stack", JStr (e_stack error))]
        else []))).

(** ** [routes/users.js] *)

(** The documents of the collection as maps from field names to values.
    [findByIdAndUpdate] with a plain body wraps its plain keys (no [$]
    operator, no dotted path) in a [$set]; the query is strict, so
    [in_schema] tells which of them are written (the paths of [userSchema]).
    [runValidators d body] tells whether the update goes through at all on
    the stored document [d]: the cast of the body, the update validators on
    its paths and MongoDB's own checks (an update that would change the
    immutable [_id] fails).  [apply_operators] is MongoDB's semantics of the
    update operators ([$set], [$unset], [$inc], ...) and dotted paths of the
    body, applied after the plain fields.  With [timestamps: true], Mongoose
    adds [updatedAt] (the time of the update) to every update. *)
Section Routes.
Context {V : Type}.
Variable in_schema : string -> bool.
Variable runValidators : gmap string V -> gmap string V -> bool.
Variable apply_operators : gmap string V -> gmap string V -> gmap string V.

(** A key of the body that is a MongoDB update operator. *)
Definition is_operator (k : string) : bool :=
  match k with
  | String c _ => Ascii.eqb c "$"%char
  | EmptyString => false
  end.

(** A dotted path such as ["preferences.searchRadius"]. *)
Definition is_dotted (k : string) : bool :=
  existsb (Ascii.eqb "."%char) (list_ascii_of_string k).

Definition plain_path (k : string) : bool := negb (is_operator k || is_dotted k).

(** [res.json(user)] ([null] when no document has the id) or
    [res.status(s).json({ error })]. *)
Inductive RouteResp :=
| RJson (user : option (gmap string V))
| RError (st : Z) (error : string).

(** [GET /me]: [User.findById(req.user._id).select('-password')]. *)
Definition getMe (store : gmap Z (gmap string V)) (id : Z) : RouteResp :=
  RJson (delete "password" <$> store !! id).

(** [PUT /me]: [User.findByIdAndUpdate(req.user._id, req.body,
    { new: true, runValidators: true }).select('-password')] at the time
    [now]; an update that fails throws before the write and answers 400. *)
Definition putMe (now : V) (store : gmap Z (gmap string V)) (id : Z) (body : gmap string V)
    : gmap Z (gmap string V) * RouteResp :=
  match store !! id with
  | None => (store, RJson None)
  | Some d =>
      if runValidators d body then
        let sets := filter (fun kv : string * V => plain_path kv.1 && in_schema kv.1 = true) body in
        let others := filter (fun kv : string * V => plain_path kv.1 = false) body in
        let d1 := sets ∪ d in
        let d2 := if (size others =? 0)%nat then d1 else apply_operators others d1 in
        let d' := <["updatedAt" := now]> d2 in
        (<[id := d']> store, RJson (Some (delete "password" d')))
      else (store, RError 400 "Erreur lors de la mise à jour du profil")
  end.

End Routes.

(** ** Concrete documents used by the witnesses and counterexamples *)

Definition mk_user (id : Z) (gender : string) (interests : list string)
    (dob : Z) (mood_now : string) (history : list MoodEntry) : User :=
  {| _id := id;
     email := Some "user@example.com";
     password := Some "hash";
     dateOfBirth := dob;
     genderIdentity := mkGenderIdentity gender interests;
     moodSystem := mkMoodSystem mood_now history 24;
     location := mkPoint "Point" (Some [0%R; 0%R]);
     isActive := true;
     isBanned := false;
     lastSeen := 0;
     preferences := mkPreferences 10000 18 35;
     refreshTokens := Some [];
     passwordResetToken := None;
     emailVerificationToken := None |}.

(** 2026-10-15T06:00:00Z. *)
Definition now_example : Z := 1792044000000.

(** The requester of the examples: a man interested in women, at [[0, 0]],
    with the default preferences (radius 10 km, ages 18 to 35). *)
Definition requester : User := mk_user 1 "homme" ["femme"] 0 "zen" [].

(** The projection applied by [findCompatibleUsers]. *)
Definition selected : list string :=
  ["password"; "refreshTokens"; "passwordResetToken"; "emailVerificationToken"].

(** A co-located woman interested in men, born 2000-01-01. *)
Definition candidate_2000 : User :=
  mk_user 2 "femme" ["homme"] 946684800000 "zen" [].

(** A co-located man interested in women, born 2000-01-01: not compatible with
    [requester]. *)
Definition candidate_incompatible : User :=
  mk_user 2 "homme" ["femme"] 946684800000 "zen" [].

(** A co-located woman born 2004-10-15 at midnight: 21 years old at
    [now_example] by the [age] virtual, 22 calendar years after her birth
    date. *)
Definition candidate_2004 : User :=
  mk_user 2 "femme" ["homme"] 1097798400000 "zen" [].

(** The options [{ ageMin: 22 }]. *)
Definition ageMin22_options : Options := mkOptions None (Some 22) None None None.

(** A co-located woman whose mood ["zen"] was set 24 hours and one second
    before [now_example], with the default expiry of 24 hours. *)
Definition candidate_stale_mood : User :=
  mk_user 2 "femme" ["homme"] 946684800000 "zen"
          [mkMoodEntry "zen" (now_example - 24 * 3600000 - 1000)].

(** A requester whose [location.coordinates] is missing. *)
Definition requester_without_location : User :=
  {| _id := 1;
     email := Some "user@example.com";
     password := Some "hash";
     dateOfBirth := 0;
     genderIdentity := mkGenderIdentity "homme" ["femme"];
     moodSystem := mkMoodSystem "zen" [] 24;
     location := mkPoint "Point" None;
     isActive := true;
     isBanned := false;
     lastSeen := 0;
     preferences := mkPreferences 10000 18 35;
     refreshTokens := Some [];
     passwordResetToken := None;
     emailVerificationToken := None |}.

(** The options [{ mood: 'zen' }]. *)
Definition zen_options : Options := mkOptions None None None (Some "zen") None.

(** Re-assigning every candidate's gender identity, by user id. *)
Definition with_genderIdentity (g : Z -> GenderIdentity) (c : User) : User :=
  {| _id := _id c; email := email c; password := password c;
     dateOfBirth := dateOfBirth c; genderIdentity := g (_id c);
     moodSystem := moodSystem c; location := location c;
     isActive := isActive c; isBanned := isBanned c; lastSeen := lastSeen c;
     preferences := preferences c; refreshTokens := refreshTokens c;
     passwordResetToken := passwordResetToken c;
     emailVerificationToken := emailVerificationToken c |}.

(** Re-assigning every candidate's mood history and mood expiry, by user id,
    keeping the current mood. *)
Definition with_moodTimes (h : Z -> list MoodEntry) (e : Z -> Z) (c : User) : User :=
  {| _id := _id c; email := email c; password := password c;
     dateOfBirth := dateOfBirth c; genderIdentity := genderIdentity c;
     moodSystem := mkMoodSystem (currentMood (moodSystem c)) (h (_id c)) (e (_id c));
     location := location c;
     isActive := isActive c; isBanned := isBanned c; lastSeen := lastSeen c;
     preferences := preferences c; refreshTokens := refreshTokens c;
     passwordResetToken := passwordResetToken c;
     emailVerificationToken := emailVerificationToken c |}.

(** The query [findCompatibleUsers] builds for [requester] at [now_example]
    without options. *)
Definition query_example : Query :=
  {| q_id_ne := 1; q_isActive := true; q_isBanned := false;
     q_geometry := location requester; q_maxDistance := 10000;
     q_dob_gte := newDate (getFullYear now_example - 35) (getMonth now_example)
                          (getDate now_example);
     q_dob_lte := newDate (getFullYear now_example - 18) (getMonth now_example)
                          (getDate now_example);
     q_mood := None; q_select := selected; q_limit := 50 |}.

Definition photo_a : Photo := mkPhoto "a.jpg" "a" false 0.
Definition photo_b : Photo := mkPhoto "b.jpg" "b" true 0.
Definition photo_c : Photo := mkPhoto "c.jpg" "c" true 0.

(** [a] comes no later than [b] in [.sort({ lastSeen: -1 })]. *)
Definition seen_desc (a b : User) : Prop := lastSeen b <= lastSeen a.

(** A token store for the middleware: one banned user. *)
Definition banned_user : User :=
  {| _id := 7;
     email := Some "banned@example.com";
     password := Some "hash";
     dateOfBirth := 0;
     genderIdentity := mkGenderIdentity "femme" [];
     moodSystem := mkMoodSystem "" [] 24;
     location := mkPoint "Point" (Some [0%R; 0%R]);
     isActive := false;
     isBanned := true;
     lastSeen := 0;
     preferences := mkPreferences 10000 18 35;
     refreshTokens := None;
     passwordResetToken := None;
     emailVerificationToken := None |}.

(** [jwt.verify] accepting the single token [tok] for user 7. *)
Definition verify_example (t : string) : Completion (option Z) :=
  if String.eqb t "tok" then Normal (Some 7) else Throw "JsonWebTokenError".

Definition schema_paths : list string :=
  ["email"; "password"; "dateOfBirth"; "isActive"; "isBanned"; "bio"].

Definition in_schema_example (k : string) : bool := includes schema_paths k.

Definition stored_doc : gmap string string :=
  <["email" := "a@example.com"]> (<["password" := "hash"]> (<["isBanned" := "true"]> ∅)).

Definition store_example : gmap Z (gmap string string) := {[1 := stored_doc; 2 := stored_doc]}.


(** A polynomial [Math.sin] and [Math.cos], accurate on [[-pi/2, pi/2]],
    and a [Math.atan2] that follows the ECMAScript NaN rules. *)
Section FloatExamples.

Local Open Scope float_scope.

Definition sin_taylor (x : float) : float :=
  let x2 := x * x in x * (1 - x2 / 6 * (1 - x2 / 20 * (1 - x2 / 42))).

Definition cos_taylor (x : float) : float :=
  let x2 := x * x in 1 - x2 / 2 * (1 - x2 / 12 * (1 - x2 / 30)).

Definition sin_poly (x : float) : float :=
  if abs x <=? Math_PI / 4 then sin_taylor x
  else if 0 <? x then cos_taylor (Math_PI / 2 - x)
  else - cos_taylor (Math_PI / 2 + x).

Definition cos_poly (x : float) : float :=
  if abs x <=? Math_PI / 4 then cos_taylor x
  else if 0 <? x then sin_taylor (Math_PI / 2 - x)
  else sin_taylor (Math_PI / 2 + x).

Definition atan_approx (t : float) : float :=
  if abs t <=? 1 then t / (1 + 0.28 * t * t)
  else (if 0 <? t then Math_PI / 2 else - (Math_PI / 2)) - t / (t * t + 0.28).

Definition atan2_poly (y x : float) : float :=
  if is_nan y || is_nan x then nan
  else if 0 <? x then atan_approx (y / x)
  else if x <? 0 then
    (if 0 <=? y then atan_approx (y / x) + Math_PI else atan_approx (y / x) - Math_PI)
  else if 0 <? y then Math_PI / 2
  else if y <? 0 then - (Math_PI / 2)
  else 0.

End FloatExamples.

(** [u] with [lastSeen] set to [t]. *)
Definition with_lastSeen (u : User) (t : Z) : User :=
  {| _id := _id u;
     email := email u;
     password := password u;
     dateOfBirth := dateOfBirth u;
     genderIdentity := genderIdentity u;
     moodSystem := moodSystem u;
     location := location u;
     isActive := isActive u;
     isBanned := isBanned u;
     lastSeen := t;
     preferences := preferences u;
     refreshTokens := refreshTokens u;
     passwordResetToken := passwordResetToken u;
     emailVerificationToken := emailVerificationToken u |}.

(** Three matching candidates, stored in neither order of [lastSeen]. *)
Definition seen_1000 : User := with_lastSeen (mk_user 2 "femme" ["homme"] 946684800000 "zen" []) 1000.
Definition seen_3000 : User := with_lastSeen (mk_user 3 "femme" ["homme"] 946684800000 "zen" []) 3000.
Definition seen_2000 : User := with_lastSeen (mk_user 4 "femme" ["homme"] 946684800000 "zen" []) 2000.

Definition store_seen : list User := [seen_1000; seen_3000; seen_2000].

(** The options [{ limit: 2 }]. *)
Definition limit2_options : Options := mkOptions None None None None (Some 2).

(** * Properties *)

(** ** Gender compatibility *)

Lemma includes_In (arr : list string) (x : string) :
  includes arr x = true <-> In x arr.
Proof.
  unfold includes. rewrite existsb_exists. split.
  - intros [y [Hy Heq]]. apply String.eqb_eq in Heq. subst. exact Hy.
  - intros H. exists x. split; [exact H | apply String.eqb_refl].
Qed.

(** C5: [isGenderCompatibleWith] is symmetric: swapping its two users does
    not change the result. *)
Theorem isGenderCompatibleWith_sym (a b : User) :
  isGenderCompatibleWith a b = isGenderCompatibleWith b a.
Proof.
  unfold isGenderCompatibleWith. apply andb_comm.
Qed.

(** C6: if [a.interestedIn] contains neither [b]'s gender nor the wildcard
    ["tous"] (in particular when it is empty), [a] and [b] are not compatible:
    an empty [interestedIn] is no implicit wildcard. *)
Theorem isGenderCompatibleWith_no_interest (a b : User) :
  ~ In (myGender (genderIdentity b)) (interestedIn (genderIdentity a)) ->
  ~ In "tous" (interestedIn (genderIdentity a)) ->
  isGenderCompatibleWith a b = false.
Proof.
  intros Hg Ht. unfold isGenderCompatibleWith.
  destruct (includes (interestedIn (genderIdentity a)) (myGender (genderIdentity b)))
    eqn:E1; [apply includes_In in E1; contradiction |].
  destruct (includes (interestedIn (genderIdentity a)) "tous")
    eqn:E2; [apply includes_In in E2; contradiction |].
  reflexivity.
Qed.

Lemma isGenderCompatibleWith_no_interest_witness :
  let a := mk_user 1 "homme" [] 0 "zen" [] in
  let b := mk_user 2 "femme" ["tous"] 0 "zen" [] in
  (~ In (myGender (genderIdentity b)) (interestedIn (genderIdentity a)) /\
   ~ In "tous" (interestedIn (genderIdentity a))) /\
  isGenderCompatibleWith a b = false.
Proof.
  cbv zeta.
  assert (H1 : ~ In (myGender (genderIdentity (mk_user 2 "femme" ["tous"] 0 "zen" [])))
                    (interestedIn (genderIdentity (mk_user 1 "homme" [] 0 "zen" []))))
    by (simpl; tauto).
  assert (H2 : ~ In "tous" (interestedIn (genderIdentity (mk_user 1 "homme" [] 0 "zen" []))))
    by (simpl; tauto).
  split; [split; assumption |].
  exact (isGenderCompatibleWith_no_interest _ _ H1 H2).
Defined.

(** ** Public profile *)

(** C10: [getPublicProfile] returns [this.toObject()] with exactly the keys
    [password], [email], [refreshTokens], [passwordResetToken],
    [passwordResetExpires], [emailVerificationToken] and
    [emailVerificationExpires] removed, every other key unchanged. *)
Theorem getPublicProfile_lookup {Doc V : Type} (toObject : Doc -> gmap string V)
    (this : Doc) (k : string) :
  getPublicProfile toObject this !! k =
  if decide (k ∈ sensitive_fields) then None else toObject this !! k.
Proof.
  unfold getPublicProfile, sensitive_fields.
  rewrite !lookup_delete.
  repeat case_decide; set_solver.
Qed.

(** ** Distance *)

(** C8: when either user's [location.coordinates] is missing, [distanceTo]
    returns [null]; present coordinates, the default [[0, 0]] included, never
    yield [null]. *)
Theorem distanceTo_absent :
  (forall c : option (list R), distanceTo None c = JNull /\ distanceTo c None = JNull) /\
  (forall c1 c2 : list R, distanceTo (Some c1) (Some c2) <> JNull).
Proof.
  split.
  - intros [c|]; split; reflexivity.
  - intros [|lon1 [|lat1 r1]] [|lon2 [|lat2 r2]]; simpl; discriminate.
Qed.

Section DistanceFacts.

Local Open Scope R_scope.

Lemma sin_half_sq (x : R) : sin (x / 2) * sin (x / 2) = (1 - cos x) / 2.
Proof.
  pose proof (cos_2a_sin (x / 2)) as H.
  replace (2 * (x / 2)) with x in H by field.
  rewrite H. field.
Qed.

Lemma sq_bounds (s : R) : -1 <= s <= 1 -> 0 <= s * s <= 1.
Proof. intros [H1 H2]. split; nra. Qed.

(** The haversine term lies in [0, 1] for all real coordinates, so both
    square roots of [distanceTo] are taken of non-negative numbers. *)
Lemma haversine_a_bounds (lon1 lat1 lon2 lat2 : R) :
  0 <= haversine_a lon1 lat1 lon2 lat2 <= 1.
Proof.
  unfold haversine_a.
  set (phi1 := lat1 * PI / 180). set (phi2 := lat2 * PI / 180).
  assert (Hd : (lat2 - lat1) * PI / 180 = phi2 - phi1)
    by (unfold phi1, phi2; field).
  rewrite Hd.
  set (s1 := sin ((phi2 - phi1) / 2) * sin ((phi2 - phi1) / 2)).
  set (s2 := sin ((lon2 - lon1) * PI / 180 / 2) * sin ((lon2 - lon1) * PI / 180 / 2)).
  assert (Hs1 : 0 <= s1 <= 1) by (apply sq_bounds, SIN_bound).
  assert (Hs2 : 0 <= s2 <= 1) by (apply sq_bounds, SIN_bound).
  assert (Hsum : s1 + cos phi1 * cos phi2 = (1 + cos (phi1 + phi2)) / 2).
  { unfold s1. rewrite sin_half_sq, cos_minus, cos_plus. field. }
  pose proof (COS_bound (phi1 + phi2)) as Hc.
  assert (Hsum01 : 0 <= s1 + cos phi1 * cos phi2 <= 1) by (rewrite Hsum; lra).
  replace (s1 + cos phi1 * cos phi2 * sin ((lon2 - lon1) * PI / 180 / 2) *
             sin ((lon2 - lon1) * PI / 180 / 2))
    with (s1 * (1 - s2) + (s1 + cos phi1 * cos phi2) * s2)
    by (unfold s2; ring).
  split; nra.
Qed.

Lemma haversine_a_sym (lon1 lat1 lon2 lat2 : R) :
  haversine_a lon1 lat1 lon2 lat2 = haversine_a lon2 lat2 lon1 lat1.
Proof.
  unfold haversine_a.
  replace ((lat1 - lat2) * PI / 180 / 2) with (- ((lat2 - lat1) * PI / 180 / 2)) by field.
  replace ((lon1 - lon2) * PI / 180 / 2) with (- ((lon2 - lon1) * PI / 180 / 2)) by field.
  rewrite !sin_neg. ring.
Qed.

Lemma haversine_a_same (lon lat : R) : haversine_a lon lat lon lat = 0.
Proof.
  unfold haversine_a.
  replace ((lat - lat) * PI / 180 / 2) with 0 by field.
  replace ((lon - lon) * PI / 180 / 2) with 0 by field.
  rewrite sin_0. ring.
Qed.

Lemma atan2_nonneg (y x : R) : 0 <= y -> 0 <= x -> 0 <= atan2 y x.
Proof.
  intros Hy Hx. unfold atan2.
  destruct (Rlt_dec 0 x) as [Hx0|Hx0].
  - destruct (Req_dec (y / x) 0) as [E|E].
    + rewrite E, atan_0. lra.
    + rewrite <- atan_0. left. apply atan_increasing.
      assert (0 <= y / x).
      { unfold Rdiv. apply Rmult_le_pos; [lra | left; apply Rinv_0_lt_compat; lra]. }
      lra.
  - destruct (Rlt_dec x 0); [lra |].
    destruct (Rlt_dec 0 y); [pose proof PI_RGT_0; lra |].
    destruct (Rlt_dec y 0); lra.
Qed.

Lemma central_angle_nonneg (lon1 lat1 lon2 lat2 : R) :
  0 <= central_angle lon1 lat1 lon2 lat2.
Proof.
  unfold central_angle.
  pose proof (atan2_nonneg (sqrt (haversine_a lon1 lat1 lon2 lat2))
                (sqrt (1 - haversine_a lon1 lat1 lon2 lat2))
                (sqrt_pos _) (sqrt_pos _)).
  lra.
Qed.

Lemma central_angle_sym (lon1 lat1 lon2 lat2 : R) :
  central_angle lon1 lat1 lon2 lat2 = central_angle lon2 lat2 lon1 lat1.
Proof. unfold central_angle. rewrite haversine_a_sym. reflexivity. Qed.

Lemma central_angle_same (lon lat : R) : central_angle lon lat lon lat = 0.
Proof.
  unfold central_angle. rewrite haversine_a_same, Rminus_0_r, sqrt_0, sqrt_1.
  unfold atan2. destruct (Rlt_dec 0 1) as [_|H]; [| lra].
  replace (0 / 1) with 0 by field. rewrite atan_0. ring.
Qed.

Lemma Math_round_nonneg (x : R) : 0 <= x -> (0 <= Math_round x)%Z.
Proof.
  intros Hx. unfold Math_round, Int_part.
  destruct (archimed (x + / 2)) as [H1 _].
  assert (Hup : (0 < up (x + / 2))%Z).
  { apply lt_0_IZR. pose proof Rinv_0_lt_compat 2 ltac:(lra). lra. }
  lia.
Qed.

Lemma Math_round_0 : Math_round 0 = 0%Z.
Proof.
  unfold Math_round, Int_part.
  rewrite <- (tech_up (0 + / 2) 1); [reflexivity | |]; simpl; lra.
Qed.

End DistanceFacts.

(** C7 (failing input): in binary64 arithmetic, for the near-antipodal
    points [[0, 0.08]] and [[180, -0.08]], with [Math.sin] and [Math.cos]
    returning the correctly rounded values at the four arguments, the
    haversine term rounds to [1 + 2^-52], [Math.sqrt(1 - a)] is NaN and
    [distanceTo] returns NaN, which is not [>= 0] (nor equal to itself). *)
Theorem distanceTo64_antipodal_NaN (js_sin js_cos : float -> float)
    (js_atan2 : float -> float -> float) :
  (forall y x, is_nan x = true -> js_atan2 y x = nan) ->
  js_sin ((-0.08 - 0.08) * Math_PI / 180 / 2)%float = (-0x1.6e059ecaa87dcp-10)%float ->
  js_cos (0.08 * Math_PI / 180)%float = 0x1.ffffdf4abdd1ep-1%float ->
  js_cos (-0.08 * Math_PI / 180)%float = 0x1.ffffdf4abdd1ep-1%float ->
  js_sin ((180 - 0) * Math_PI / 180 / 2)%float = 1%float ->
  distanceTo64 js_sin js_cos js_atan2 (Some [0%float; 0.08%float]) (Some [180%float; (-0.08)%float])
  = Some nan /\
  (0 <=? nan)%float = false /\ (nan =? nan)%float = false.
Proof.
  intros Hat H1 H2 H3 H4.
  assert (Ha : haversine_a64 js_sin js_cos 0 0.08 180 (-0.08) = 0x1.0000000000001p+0%float).
  { unfold haversine_a64. cbv zeta. rewrite H1, H2, H3, H4. vm_compute. reflexivity. }
  split; [| split; reflexivity].
  unfold distanceTo64, central_angle64. cbv zeta. rewrite Ha.
  rewrite Hat by (vm_compute; reflexivity).
  vm_compute. reflexivity.
Qed.

Lemma distanceTo64_antipodal_NaN_witness :
  ((forall y x, is_nan x = true -> atan2_poly y x = nan) /\
   sin_poly ((-0.08 - 0.08) * Math_PI / 180 / 2)%float = (-0x1.6e059ecaa87dcp-10)%float /\
   cos_poly (0.08 * Math_PI / 180)%float = 0x1.ffffdf4abdd1ep-1%float /\
   cos_poly (-0.08 * Math_PI / 180)%float = 0x1.ffffdf4abdd1ep-1%float /\
   sin_poly ((180 - 0) * Math_PI / 180 / 2)%float = 1%float) /\
  distanceTo64 sin_poly cos_poly atan2_poly
    (Some [0%float; 0.08%float]) (Some [180%float; (-0.08)%float]) = Some nan.
Proof.
  assert (H0 : forall y x, is_nan x = true -> atan2_poly y x = nan).
  { intros y x Hx. unfold atan2_poly. rewrite Hx, orb_true_r. reflexivity. }
  assert (H1 : sin_poly ((-0.08 - 0.08) * Math_PI / 180 / 2)%float
               = (-0x1.6e059ecaa87dcp-10)%float) by (vm_compute; reflexivity).
  assert (H2 : cos_poly (0.08 * Math_PI / 180)%float = 0x1.ffffdf4abdd1ep-1%float)
    by (vm_compute; reflexivity).
  assert (H3 : cos_poly (-0.08 * Math_PI / 180)%float = 0x1.ffffdf4abdd1ep-1%float)
    by (vm_compute; reflexivity).
  assert (H4 : sin_poly ((180 - 0) * Math_PI / 180 / 2)%float = 1%float)
    by (vm_compute; reflexivity).
  exact (conj (conj H0 (conj H1 (conj H2 (conj H3 H4))))
              (proj1 (distanceTo64_antipodal_NaN sin_poly cos_poly atan2_poly H0 H1 H2 H3 H4))).
Defined.

(** ** The candidate query *)

Section StoreFacts.

Variable near : Point -> Z -> Point -> bool.

Lemma In_insert_by_lastSeen (x c : User) (l : list User) :
  In x (insert_by_lastSeen c l) <-> x = c \/ In x l.
Proof.
  induction l as [|d l IH]; simpl; [intuition congruence |].
  destruct (lastSeen d <? lastSeen c); simpl; [intuition congruence |].
  rewrite IH. intuition congruence.
Qed.

Lemma In_sort_lastSeen_desc (x : User) (l : list User) :
  In x (sort_lastSeen_desc l) <-> In x l.
Proof.
  induction l as [|c l IH]; simpl; [tauto |].
  rewrite In_insert_by_lastSeen, IH. intuition congruence.
Qed.

Lemma In_apply_limit (x : User) (n : Z) (l : list User) :
  In x (apply_limit n l) -> In x l.
Proof.
  unfold apply_limit. destruct (n =? 0); [auto |].
  intros H. rewrite <- (firstn_skipn (Z.abs_nat n) l).
  apply in_or_app. left. exact H.
Qed.

Lemma In_exec (store : list User) (q : Query) (x : User) :
  In x (exec near store q) ->
  exists c, x = project (q_select q) c /\ In c store /\ matches near q c = true.
Proof.
  unfold exec. intros Hx. apply in_map_iff in Hx as [c [<- Hc]].
  apply In_apply_limit, In_sort_lastSeen_desc, filter_In in Hc as [Hin Hm].
  exists c. auto.
Qed.

Lemma exec_single (q : Query) (c : User) :
  matches near q c = true -> q_limit q = 50 ->
  exec near [c] q = [project (q_select q) c].
Proof.
  intros Hm Hl. unfold exec. simpl. rewrite Hm, Hl. reflexivity.
Qed.

End StoreFacts.

(** C3: every user returned by the candidate query differs from the
    requester, is active and is not banned. *)
Theorem candidates_exclude_self_inactive_banned
    (near : Point -> Z -> Point -> bool) (now : Z) (store : list User)
    (user : User) (options : Options) (l : list User) (c : User) :
  candidates near now store user options = Normal l -> In c l ->
  _id c <> _id user /\ isActive c = true /\ isBanned c = false.
Proof.
  unfold candidates, findCompatibleUsers. intros H Hc.
  injection H as <-.
  apply In_exec in Hc as [c0 [-> [_ Hm]]].
  unfold matches in Hm. simpl in Hm.
  apply andb_prop in Hm as [Hm _]. apply andb_prop in Hm as [Hm _].
  apply andb_prop in Hm as [Hm _]. apply andb_prop in Hm as [Hm _].
  apply andb_prop in Hm as [Hm Hb]. apply andb_prop in Hm as [Hid Ha].
  apply negb_true_iff, Z.eqb_neq in Hid.
  apply Bool.eqb_prop in Ha. apply Bool.eqb_prop in Hb.
  simpl. auto.
Qed.

Lemma candidates_exclude_self_inactive_banned_witness :
  (candidates (fun (_ : Point) (_ : Z) (_ : Point) => true) now_example
     [candidate_2000] requester no_options
     = Normal [project selected candidate_2000] /\
   In (project selected candidate_2000) [project selected candidate_2000]) /\
  (_id (project selected candidate_2000) <> _id requester /\
   isActive (project selected candidate_2000) = true /\
   isBanned (project selected candidate_2000) = false).
Proof.
  assert (H1 : candidates (fun (_ : Point) (_ : Z) (_ : Point) => true) now_example
                 [candidate_2000] requester no_options
               = Normal [project selected candidate_2000]) by reflexivity.
  assert (H2 : In (project selected candidate_2000) [project selected candidate_2000])
    by (left; reflexivity).
  split; [split; assumption |].
  exact (candidates_exclude_self_inactive_banned _ _ _ _ _ _ _ H1 H2).
Defined.

Lemma sphere_near_refl (radius : R) (p : Point) (maxDistance : Z)
    (lon lat : R) (rest : list R) :
  coordinates p = Some (lon :: lat :: rest) -> 0 <= maxDistance ->
  sphere_near radius p maxDistance p = true.
Proof.
  intros Hc Hd. unfold sphere_near. rewrite Hc.
  rewrite central_angle_same, Rmult_0_r.
  destruct (Rle_dec 0 (IZR maxDistance)) as [_|H]; [reflexivity |].
  exfalso. apply H. apply IZR_le. exact Hd.
Qed.

Lemma candidates_single (near : Point -> Z -> Point -> bool) (now : Z)
    (user c : User) (options : Options) :
  candidates near now [c] user options =
  match findCompatibleUsers now user options with
  | Normal q => Normal (if matches near q c
                        then map (project (q_select q)) (apply_limit (q_limit q) [c])
                        else [])
  | Throw e => Throw e
  end.
Proof.
  unfold candidates, exec. destruct (findCompatibleUsers now user options); [| reflexivity].
  simpl. destruct (matches near v c); [reflexivity |].
  unfold apply_limit. destruct (q_limit v =? 0); [reflexivity |].
  rewrite firstn_nil. reflexivity.
Qed.

(** ** Fields the candidate query does not read *)

Section Invariance.

Variable near : Point -> Z -> Point -> bool.
Variable f : User -> User.
Hypothesis f_fields : forall c,
  _id (f c) = _id c /\ isActive (f c) = isActive c /\ isBanned (f c) = isBanned c /\
  location (f c) = location c /\ dateOfBirth (f c) = dateOfBirth c /\
  currentMood (moodSystem (f c)) = currentMood (moodSystem c) /\
  lastSeen (f c) = lastSeen c.
Hypothesis f_project : forall sel c, project sel (f c) = f (project sel c).

Lemma matches_f (q : Query) (c : User) : matches near q (f c) = matches near q c.
Proof.
  destruct (f_fields c) as (H1 & H2 & H3 & H4 & H5 & H6 & _).
  unfold matches. rewrite H1, H2, H3, H4, H5, H6. reflexivity.
Qed.

Lemma filter_map_f (q : Query) (l : list User) :
  List.filter (matches near q) (map f l) = map f (List.filter (matches near q) l).
Proof.
  induction l as [|c l IH]; simpl; [reflexivity |].
  rewrite matches_f. destruct (matches near q c); simpl; rewrite IH; reflexivity.
Qed.

Lemma insert_map_f (c : User) (l : list User) :
  insert_by_lastSeen (f c) (map f l) = map f (insert_by_lastSeen c l).
Proof.
  induction l as [|d l IH]; simpl; [reflexivity |].
  destruct (f_fields c) as (_ & _ & _ & _ & _ & _ & Hc).
  destruct (f_fields d) as (_ & _ & _ & _ & _ & _ & Hd).
  rewrite Hc, Hd. destruct (lastSeen d <? lastSeen c); simpl; [reflexivity |].
  rewrite IH. reflexivity.
Qed.

Lemma sort_map_f (l : list User) :
  sort_lastSeen_desc (map f l) = map f (sort_lastSeen_desc l).
Proof.
  induction l as [|c l IH]; simpl; [reflexivity |].
  rewrite IH. apply insert_map_f.
Qed.

Lemma apply_limit_map_f (n : Z) (l : list User) :
  apply_limit n (map f l) = map f (apply_limit n l).
Proof.
  unfold apply_limit. destruct (n =? 0); [reflexivity |]. apply firstn_map.
Qed.

Lemma exec_map_f (store : list User) (q : Query) :
  exec near (map f store) q = map f (exec near store q).
Proof.
  unfold exec. rewrite filter_map_f, sort_map_f, apply_limit_map_f, !map_map.
  apply map_ext. intros c. apply f_project.
Qed.

Lemma candidates_map_f (now : Z) (store : list User) (user : User) (options : Options) :
  candidates near now (map f store) user options =
  match candidates near now store user options with
  | Normal l => Normal (map f l)
  | Throw e => Throw e
  end.
Proof.
  unfold candidates. destruct (findCompatibleUsers now user options); [| reflexivity].
  rewrite exec_map_f. reflexivity.
Qed.

End Invariance.

(** C1 (amended): the candidate query applies no gender-compatibility filter:
    giving the stored users any other gender identities and interests
    returns the same users, with only those fields changed. *)
Theorem candidates_ignore_genderIdentity
    (near : Point -> Z -> Point -> bool) (g : Z -> GenderIdentity) (now : Z)
    (store : list User) (user : User) (options : Options) :
  candidates near now (map (with_genderIdentity g) store) user options =
  match candidates near now store user options with
  | Normal l => Normal (map (with_genderIdentity g) l)
  | Throw e => Throw e
  end.
Proof.
  apply candidates_map_f.
  - intros c. repeat split.
  - intros sel c. reflexivity.
Qed.

(** C9 (amended): there is no mood-freshness check: the mood histories and
    [moodExpiryHours] of the stored users never change the result of the
    candidate query, whose mood filter compares [currentMood] only. *)
Theorem candidates_ignore_mood_age
    (near : Point -> Z -> Point -> bool) (h : Z -> list MoodEntry) (e : Z -> Z)
    (now : Z) (store : list User) (user : User) (options : Options) :
  candidates near now (map (with_moodTimes h e) store) user options =
  match candidates near now store user options with
  | Normal l => Normal (map (with_moodTimes h e) l)
  | Throw err => Throw err
  end.
Proof.
  apply candidates_map_f.
  - intros c. repeat split.
  - intros sel c. reflexivity.
Qed.

(** Evaluation of the query on a one-user store of co-located documents. *)
Ltac eval_single_candidate c :=
  rewrite candidates_single; unfold mongo_near; simpl;
  unfold matches, c, mk_user; simpl;
  rewrite (sphere_near_refl _ _ _ 0 0 []) by (reflexivity || (vm_compute; discriminate));
  reflexivity.

(** C1 (counterexample): with the requester [requester] and a co-located
    active candidate of an incompatible gender, the candidate query returns
    that candidate. *)
Lemma findCompatibleUsers_returns_incompatible :
  candidates mongo_near now_example [candidate_incompatible] requester no_options
    = Normal [project selected candidate_incompatible] /\
  isGenderCompatibleWith requester (project selected candidate_incompatible) = false.
Proof.
  split; [| reflexivity].
  eval_single_candidate candidate_incompatible.
Qed.

(** C9 (counterexample): a mood set 24 hours and one second ago, past the
    default expiry of 24 hours, still passes the [mood: 'zen'] filter. *)
Lemma stale_mood_still_matches :
  moodHistory (moodSystem candidate_stale_mood)
    = [mkMoodEntry "zen" (now_example - 24 * 3600000 - 1000)] /\
  moodExpiryHours (moodSystem candidate_stale_mood) = 24 /\
  candidates mongo_near now_example [candidate_stale_mood] requester zen_options
    = Normal [project selected candidate_stale_mood].
Proof.
  split; [reflexivity | split; [reflexivity |]].
  eval_single_candidate candidate_stale_mood.
Qed.

(** C4 (failing input): at 2026-10-15T06:00Z, with [ageMin = 22] and the
    default [ageMax = 35], the query returns a user born 2004-10-15, a birth
    date the schema's [dateOfBirth] validator accepts, whose [age] is
    21 < 22. *)
Lemma findCompatibleUsers_admits_age_21 :
  dateOfBirth_validator now_example (dateOfBirth candidate_2004) = true /\
  candidates mongo_near now_example [candidate_2004] requester ageMin22_options
    = Normal [project selected candidate_2004] /\
  age now_example (project selected candidate_2004) = 21.
Proof.
  split; [reflexivity |]. split; [| reflexivity].
  eval_single_candidate candidate_2004.
Qed.

(** C2 (amended): [findCompatibleUsers] performs no location check and never
    throws: it always returns the query, whose [$geometry] is the requester's
    location as stored, whatever it is. *)
Theorem findCompatibleUsers_total (now : Z) (user : User) (options : Options) :
  exists q, findCompatibleUsers now user options = Normal q /\
            q_geometry q = location user.
Proof.
  eexists. split; reflexivity.
Qed.

(** C2 (counterexample): for a requester without coordinates the call raises
    no [InvalidQueryState] error but returns a query without coordinates. *)
Lemma findCompatibleUsers_without_location :
  findCompatibleUsers now_example requester_without_location no_options
    <> Throw "InvalidQueryState" /\
  exists q, findCompatibleUsers now_example requester_without_location no_options
              = Normal q /\ coordinates (q_geometry q) = None.
Proof.
  split; [discriminate |].
  eexists. split; reflexivity.
Qed.

(** * Further properties of the code *)

(** ** Photos *)

Section PhotoFacts.

Lemma set_isMain_twice (b c : bool) (p : Photo) :
  set_isMain b (set_isMain c p) = set_isMain b p.
Proof. reflexivity. Qed.

Lemma isMain_set (b : bool) (p : Photo) : isMain (set_isMain b p) = b.
Proof. reflexivity. Qed.

Lemma forEach_isMain_index_succ (i : nat) (l : list Photo) :
  forEach_isMain_index (S i) l = map (set_isMain false) l.
Proof.
  revert i. induction l as [|p l IH]; intros i; simpl; [reflexivity |].
  rewrite IH. reflexivity.
Qed.

Lemma forEach_isMain_index_0 (p : Photo) (l : list Photo) :
  forEach_isMain_index 0 (p :: l) = set_isMain true p :: map (set_isMain false) l.
Proof. simpl. rewrite forEach_isMain_index_succ. reflexivity. Qed.

Lemma filter_isMain_cleared (l : list Photo) :
  List.filter isMain (map (set_isMain false) l) = [].
Proof. induction l as [|p l IH]; simpl; auto. Qed.

Lemma map_cleared_twice (l : list Photo) :
  map (set_isMain false) (map (set_isMain false) l) = map (set_isMain false) l.
Proof. rewrite map_map. reflexivity. Qed.

(** The hook's result, by the number of main photos. *)
Lemma preSavePhotos_cases (p : Photo) (rest : list Photo) :
  preSavePhotos (p :: rest) =
  match length (List.filter isMain (p :: rest)) with
  | O => set_isMain true p :: rest
  | S O => p :: rest
  | _ => set_isMain true p :: map (set_isMain false) rest
  end.
Proof.
  unfold preSavePhotos. cbv zeta.
  replace ((0 <? length (p :: rest))%nat) with true by reflexivity.
  destruct (length (List.filter isMain (p :: rest))) as [|[|n]] eqn:E;
    cbn [Nat.eqb Nat.ltb Nat.leb]; [reflexivity | reflexivity |].
  apply forEach_isMain_index_0.
Qed.

Lemma preSavePhotos_one_main (ps : list Photo) :
  ps <> [] ->
  length (List.filter isMain (preSavePhotos ps)) = 1%nat /\
  map (set_isMain false) (preSavePhotos ps) = map (set_isMain false) ps.
Proof.
  destruct ps as [|p rest]; [congruence | intros _].
  rewrite preSavePhotos_cases.
  destruct (length (List.filter isMain (p :: rest))) as [|[|n]] eqn:E.
  - simpl in E. destruct (isMain p) eqn:Ep; [discriminate |].
    simpl. rewrite E. split; reflexivity.
  - split; [exact E | reflexivity].
  - simpl. rewrite filter_isMain_cleared, map_cleared_twice. split; reflexivity.
Qed.

Lemma preSavePhotos_exactly_one (ps : list Photo) :
  length (List.filter isMain ps) = 1%nat -> preSavePhotos ps = ps.
Proof.
  destruct ps as [|p rest]; [reflexivity |].
  intros H. rewrite preSavePhotos_cases, H. reflexivity.
Qed.

Lemma find_isMain_single (l : list Photo) (m : Photo) :
  List.filter isMain l = [m] -> List.find isMain l = Some m.
Proof.
  induction l as [|p l IH]; simpl; [discriminate |].
  destruct (isMain p) eqn:Ep; [congruence | exact IH].
Qed.

Lemma filter_single_isMain (l : list Photo) :
  length (List.filter isMain l) = 1%nat ->
  exists m, List.filter isMain l = [m] /\ isMain m = true.
Proof.
  intros H. destruct (List.filter isMain l) as [|m [|m' r]] eqn:E; try discriminate.
  exists m. split; [reflexivity |].
  assert (Hin : In m (List.filter isMain l)) by (rewrite E; left; reflexivity).
  apply filter_In in Hin. apply Hin.
Qed.

End PhotoFacts.

(** The [pre('save')] photo hook leaves a non-empty photo list with exactly
    one main photo, and changes nothing but the [isMain] flags. *)
Theorem preSavePhotos_single_main (ps : list Photo) :
  ps <> [] ->
  length (List.filter isMain (preSavePhotos ps)) = 1%nat /\
  map (set_isMain false) (preSavePhotos ps) = map (set_isMain false) ps.
Proof. apply preSavePhotos_one_main. Qed.


Lemma preSavePhotos_single_main_witness :
  [photo_a; photo_b; photo_c] <> [] /\
  (length (List.filter isMain (preSavePhotos [photo_a; photo_b; photo_c])) = 1%nat /\
   map (set_isMain false) (preSavePhotos [photo_a; photo_b; photo_c])
   = map (set_isMain false) [photo_a; photo_b; photo_c]).
Proof.
  assert (H : [photo_a; photo_b; photo_c] <> []) by discriminate.
  exact (conj H (preSavePhotos_single_main _ H)).
Defined.

(** The photo hook is idempotent, and leaves a list with exactly one main
    photo unchanged. *)
Theorem preSavePhotos_idempotent (ps : list Photo) :
  preSavePhotos (preSavePhotos ps) = preSavePhotos ps /\
  (length (List.filter isMain ps) = 1%nat -> preSavePhotos ps = ps).
Proof.
  split; [| apply preSavePhotos_exactly_one].
  destruct ps as [|p rest]; [reflexivity |].
  apply preSavePhotos_exactly_one.
  apply preSavePhotos_one_main. discriminate.
Qed.

Lemma preSavePhotos_idempotent_witness :
  length (List.filter isMain [photo_a; photo_b]) = 1%nat /\
  preSavePhotos [photo_a; photo_b] = [photo_a; photo_b].
Proof.
  assert (H : length (List.filter isMain [photo_a; photo_b]) = 1%nat) by reflexivity.
  exact (conj H (proj2 (preSavePhotos_idempotent [photo_a; photo_b]) H)).
Defined.

(** With several main photos, the hook makes the first photo of the list the
    main one and clears every other flag, whether or not the first photo was
    marked main. *)
Theorem preSavePhotos_several_main (p : Photo) (rest : list Photo) :
  (2 <= length (List.filter isMain (p :: rest)))%nat ->
  preSavePhotos (p :: rest) = set_isMain true p :: map (set_isMain false) rest.
Proof.
  intros H. rewrite preSavePhotos_cases.
  destruct (length (List.filter isMain (p :: rest))) as [|[|n]]; [lia | lia | reflexivity].
Qed.

Lemma preSavePhotos_several_main_witness :
  (2 <= length (List.filter isMain (photo_a :: [photo_b; photo_c])))%nat /\
  preSavePhotos (photo_a :: [photo_b; photo_c])
  = set_isMain true photo_a :: map (set_isMain false) [photo_b; photo_c].
Proof.
  assert (H : (2 <= length (List.filter isMain (photo_a :: [photo_b; photo_c])))%nat)
    by (simpl; lia).
  exact (conj H (preSavePhotos_several_main _ _ H)).
Defined.

(** After the photo hook, [mainPhoto] is [null] exactly for an empty list, and
    otherwise is the one photo flagged main. *)
Theorem mainPhoto_after_preSave (ps : list Photo) :
  (mainPhoto (preSavePhotos ps) = None <-> ps = []) /\
  (forall m, mainPhoto (preSavePhotos ps) = Some m ->
             isMain m = true /\ List.filter isMain (preSavePhotos ps) = [m]).
Proof.
  destruct ps as [|p rest].
  - split; [split; reflexivity | discriminate].
  - destruct (preSavePhotos_one_main (p :: rest) ltac:(discriminate)) as [H1 _].
    destruct (filter_single_isMain _ H1) as [m [Hf Hm]].
    unfold mainPhoto. rewrite (find_isMain_single _ _ Hf).
    split; [split; discriminate |].
    intros m' E. injection E as <-. auto.
Qed.

(** ** Ghost mode *)

(** [isInGhostMode] is truthy exactly when ghost mode is active with an
    expiry date still in the future; when it is active without [expiresAt]
    the method returns [undefined] rather than [false]. *)
Theorem isInGhostMode_truthy (now : Z) (g : GhostMode) :
  (js_truthy (isInGhostMode now g) = true <->
   ghost_isActive g = true /\ exists t, expiresAt g = Some t /\ now < t) /\
  (isInGhostMode now g = JsUndefined <->
   ghost_isActive g = true /\ expiresAt g = None).
Proof.
  unfold isInGhostMode. destruct (ghost_isActive g); [| split; split; intros H;
    repeat match goal with H : _ /\ _ |- _ => destruct H end; simpl in *; congruence].
  destruct (expiresAt g) as [t|]; simpl; split; split.
  - intros H. apply Z.ltb_lt in H. eauto.
  - intros [_ [t' [E H]]]. injection E as <-. apply Z.ltb_lt. exact H.
  - discriminate.
  - intros [_ E]. discriminate.
  - discriminate.
  - intros [_ [t' [E _]]]. discriminate.
  - auto.
  - auto.
Qed.

(** Ghost mode only ends as time passes: if the user is in ghost mode at
    [t2], they are at every earlier [t1]. *)
Theorem isInGhostMode_earlier (t1 t2 : Z) (g : GhostMode) :
  js_truthy (isInGhostMode t2 g) = true -> t1 <= t2 ->
  js_truthy (isInGhostMode t1 g) = true.
Proof.
  unfold isInGhostMode. destruct (ghost_isActive g); [| discriminate].
  destruct (expiresAt g) as [t|]; simpl; [| discriminate].
  rewrite !Z.ltb_lt. lia.
Qed.

Lemma isInGhostMode_earlier_witness :
  (js_truthy (isInGhostMode 10 (mkGhostMode true (Some 20) None)) = true /\ 5 <= 10) /\
  js_truthy (isInGhostMode 5 (mkGhostMode true (Some 20) None)) = true.
Proof.
  assert (H1 : js_truthy (isInGhostMode 10 (mkGhostMode true (Some 20) None)) = true)
    by reflexivity.
  assert (H2 : 5 <= 10) by lia.
  exact (conj (conj H1 H2) (isInGhostMode_earlier 5 10 _ H1 H2)).
Defined.

(** ** The date-of-birth validator *)

(** The schema's [dateOfBirth] validator accepts a birth date exactly when it
    lies in the window [(now - 101 years, now - 18 years]], years being
    365.25 days. *)
Theorem dateOfBirth_validator_window (now dob : Z) :
  dateOfBirth_validator now dob = true <->
  now - 101 * msPerJulianYear < dob <= now - 18 * msPerJulianYear.
Proof.
  unfold dateOfBirth_validator, msPerJulianYear.
  rewrite andb_true_iff, !Z.leb_le.
  pose proof (Z.div_mod (now - dob) 31557600000 ltac:(lia)) as Hd.
  pose proof (Z.mod_pos_bound (now - dob) 31557600000 ltac:(lia)) as Hm.
  set (a := (now - dob) / 31557600000) in *.
  set (r := (now - dob) mod 31557600000) in *.
  split; [intros [H1 H2]; nia | intros [H1 H2]; split; nia].
Qed.

(** A birth date accepted by the validator at [t0] gives an [age] of at least
    18 at every later time; the upper bound of 100 is not kept: 83 Julian
    years after [t0] the [age] exceeds 100 and the validator refuses the
    stored date. *)
Theorem age_after_validation (t0 t : Z) (u : User) :
  dateOfBirth_validator t0 (dateOfBirth u) = true -> t0 <= t ->
  18 <= age t u /\
  (t0 + 83 * msPerJulianYear <= t ->
   100 < age t u /\ dateOfBirth_validator t (dateOfBirth u) = false).
Proof.
  unfold dateOfBirth_validator, age. rewrite andb_true_iff, !Z.leb_le.
  intros [H _] Ht. split.
  - eapply Z.le_trans; [exact H |].
    apply Z.div_le_mono; unfold msPerJulianYear; lia.
  - intros H83.
    assert (Hd : (t0 - dateOfBirth u) / msPerJulianYear + 83
                 <= (t - dateOfBirth u) / msPerJulianYear).
    { rewrite <- Z.div_add by (unfold msPerJulianYear; lia).
      apply Z.div_le_mono; unfold msPerJulianYear in *; lia. }
    split; [lia |].
    apply andb_false_iff. right. apply Z.leb_gt. lia.
Qed.

Lemma age_after_validation_witness :
  (dateOfBirth_validator now_example (dateOfBirth candidate_2000) = true /\
   now_example <= now_example + 83 * msPerJulianYear /\
   now_example + 83 * msPerJulianYear <= now_example + 83 * msPerJulianYear) /\
  100 < age (now_example + 83 * msPerJulianYear) candidate_2000 /\
  dateOfBirth_validator (now_example + 83 * msPerJulianYear) (dateOfBirth candidate_2000) = false.
Proof.
  assert (H1 : dateOfBirth_validator now_example (dateOfBirth candidate_2000) = true)
    by reflexivity.
  assert (H2 : now_example <= now_example + 83 * msPerJulianYear)
    by (unfold msPerJulianYear; lia).
  assert (H3 : now_example + 83 * msPerJulianYear <= now_example + 83 * msPerJulianYear)
    by lia.
  exact (conj (conj H1 (conj H2 H3)) (proj2 (age_after_validation _ _ _ H1 H2) H3)).
Defined.

(** ** The candidate query, further *)

Lemma findCompatibleUsers_fields (now : Z) (user : User) (options : Options) (q : Query) :
  findCompatibleUsers now user options = Normal q ->
  q_id_ne q = _id user /\ q_isActive q = true /\ q_isBanned q = false /\
  q_mood q = match opt_mood options with
             | Some m => if truthy m then Some m else None
             | None => None
             end /\
  q_select q = selected /\ q_limit q = default 50 (opt_limit options).
Proof.
  unfold findCompatibleUsers. intros H. injection H as <-.
  repeat split; reflexivity.
Qed.

Lemma candidates_exec (near : Point -> Z -> Point -> bool) (now : Z)
    (store : list User) (user : User) (options : Options) (l : list User) :
  candidates near now store user options = Normal l ->
  exists q, findCompatibleUsers now user options = Normal q /\ l = exec near store q.
Proof.
  unfold candidates. destruct (findCompatibleUsers now user options) as [q|e];
    intros H; [| discriminate]. injection H as <-. eauto.
Qed.

Section QueryFacts.

Variable near : Point -> Z -> Point -> bool.

Lemma insert_by_lastSeen_sorted (c : User) (l : list User) :
  Sorted seen_desc l -> Sorted seen_desc (insert_by_lastSeen c l).
Proof.
  induction l as [|d l IH]; simpl; intros H; [constructor; auto |].
  destruct (lastSeen d <? lastSeen c) eqn:E.
  - apply Z.ltb_lt in E. constructor; [exact H | constructor; unfold seen_desc; lia].
  - apply Z.ltb_ge in E. apply Sorted_inv in H as [Hl Hhd].
    constructor; [apply IH; exact Hl |].
    destruct l as [|e l]; simpl.
    + constructor. unfold seen_desc. lia.
    + apply HdRel_inv in Hhd.
      destruct (lastSeen e <? lastSeen c); constructor; unfold seen_desc in *; lia.
Qed.

Lemma sort_lastSeen_desc_sorted (l : list User) : Sorted seen_desc (sort_lastSeen_desc l).
Proof.
  induction l as [|c l IH]; simpl; [constructor |].
  apply insert_by_lastSeen_sorted. exact IH.
Qed.

Lemma firstn_sorted (n : nat) (l : list User) :
  Sorted seen_desc l -> Sorted seen_desc (firstn n l).
Proof.
  revert l. induction n as [|n IH]; intros l H; simpl; [constructor |].
  destruct l as [|a l]; [constructor |].
  apply Sorted_inv in H as [Hl Hhd]. constructor; [apply IH; exact Hl |].
  destruct n as [|n]; simpl; [constructor |].
  destruct l as [|b l]; [constructor |]. apply HdRel_inv in Hhd. constructor. exact Hhd.
Qed.

Lemma map_project_sorted (sel : list string) (l : list User) :
  Sorted seen_desc l -> Sorted seen_desc (map (project sel) l).
Proof.
  induction 1 as [|a l Hl IH Hhd]; simpl; constructor; [exact IH |].
  destruct Hhd; simpl; constructor. exact H.
Qed.

Lemma length_insert_by_lastSeen (c : User) (l : list User) :
  length (insert_by_lastSeen c l) = S (length l).
Proof.
  induction l as [|d l IH]; simpl; [reflexivity |].
  destruct (lastSeen d <? lastSeen c); simpl; [reflexivity | rewrite IH; reflexivity].
Qed.

Lemma length_sort_lastSeen_desc (l : list User) :
  length (sort_lastSeen_desc l) = length l.
Proof.
  induction l as [|c l IH]; simpl; [reflexivity |].
  rewrite length_insert_by_lastSeen, IH. reflexivity.
Qed.

End QueryFacts.

(** The candidates are returned most recently seen first: the result is
    sorted by [lastSeen], descending. *)
Theorem candidates_sorted_lastSeen (near : Point -> Z -> Point -> bool) (now : Z)
    (store : list User) (user : User) (options : Options) (l : list User) :
  candidates near now store user options = Normal l -> Sorted seen_desc l.
Proof.
  intros H. apply candidates_exec in H as [q [_ ->]].
  unfold exec, apply_limit. apply map_project_sorted.
  destruct (_ =? 0); [| apply firstn_sorted]; apply sort_lastSeen_desc_sorted.
Qed.

Lemma candidates_sorted_lastSeen_witness :
  candidates (fun (_ : Point) (_ : Z) (_ : Point) => true) now_example
    store_seen requester no_options
  = Normal (map (project selected) [seen_3000; seen_2000; seen_1000]) /\
  Sorted seen_desc (map (project selected) [seen_3000; seen_2000; seen_1000]).
Proof.
  assert (H : candidates (fun (_ : Point) (_ : Z) (_ : Point) => true) now_example
                store_seen requester no_options
              = Normal (map (project selected) [seen_3000; seen_2000; seen_1000]))
    by reflexivity.
  exact (conj H (candidates_sorted_lastSeen _ _ _ _ _ _ H)).
Defined.

(** The number of candidates is at most the limit ([options.limit], 50 by
    default) unless that limit is 0, which MongoDB reads as no limit. *)
Theorem candidates_limit (near : Point -> Z -> Point -> bool) (now : Z)
    (store : list User) (user : User) (options : Options) (l : list User) :
  candidates near now store user options = Normal l ->
  default 50 (opt_limit options) <> 0 ->
  (length l <= Z.abs_nat (default 50%Z (opt_limit options)))%nat.
Proof.
  intros H Hn. apply candidates_exec in H as [q [Hq ->]].
  destruct (findCompatibleUsers_fields _ _ _ _ Hq) as (_ & _ & _ & _ & _ & Hlim).
  unfold exec, apply_limit. rewrite length_map, Hlim.
  apply Z.eqb_neq in Hn. rewrite Hn. apply firstn_le_length.
Qed.

Lemma candidates_limit_witness :
  (length (List.filter (matches (fun (_ : Point) (_ : Z) (_ : Point) => true) query_example)
             store_seen) = 3%nat /\
   candidates (fun (_ : Point) (_ : Z) (_ : Point) => true) now_example
     store_seen requester limit2_options
   = Normal (map (project selected) [seen_3000; seen_2000]) /\
   default 50 (opt_limit limit2_options) <> 0) /\
  (length (map (project selected) [seen_3000; seen_2000])
   <= Z.abs_nat (default 50%Z (opt_limit limit2_options)))%nat.
Proof.
  assert (H3 : length (List.filter (matches (fun (_ : Point) (_ : Z) (_ : Point) => true)
                                      query_example) store_seen) = 3%nat) by reflexivity.
  assert (H : candidates (fun (_ : Point) (_ : Z) (_ : Point) => true) now_example
                store_seen requester limit2_options
              = Normal (map (project selected) [seen_3000; seen_2000])) by reflexivity.
  assert (Hn : default 50 (opt_limit limit2_options) <> 0) by discriminate.
  exact (conj (conj H3 (conj H Hn)) (candidates_limit _ _ _ _ _ _ H Hn)).
Defined.

(** With a non-empty [mood] option, every returned candidate's current mood
    is that mood. *)
Theorem candidates_mood (near : Point -> Z -> Point -> bool) (now : Z)
    (store : list User) (user : User) (options : Options) (m : string)
    (l : list User) (c : User) :
  opt_mood options = Some m -> m <> "" ->
  candidates near now store user options = Normal l -> In c l ->
  currentMood (moodSystem c) = m.
Proof.
  intros Hm Hne H Hc. apply candidates_exec in H as [q [Hq ->]].
  destruct (findCompatibleUsers_fields _ _ _ _ Hq) as (_ & _ & _ & Hqm & _).
  rewrite Hm in Hqm. unfold truthy in Hqm.
  destruct (String.eqb m "") eqn:E; [apply String.eqb_eq in E; contradiction |].
  apply In_exec in Hc as [c0 [-> [_ Hmatch]]].
  unfold matches in Hmatch. rewrite Hqm in Hmatch.
  apply andb_prop in Hmatch as [_ Hmood].
  apply String.eqb_eq in Hmood. exact Hmood.
Qed.

Lemma candidates_mood_witness :
  (opt_mood zen_options = Some "zen" /\ "zen" <> "" /\
   candidates (fun (_ : Point) (_ : Z) (_ : Point) => true) now_example
     [candidate_2000] requester zen_options = Normal [project selected candidate_2000] /\
   In (project selected candidate_2000) [project selected candidate_2000]) /\
  currentMood (moodSystem (project selected candidate_2000)) = "zen".
Proof.
  assert (H1 : opt_mood zen_options = Some "zen") by reflexivity.
  assert (H2 : "zen" <> "") by discriminate.
  assert (H3 : candidates (fun (_ : Point) (_ : Z) (_ : Point) => true) now_example
                 [candidate_2000] requester zen_options
               = Normal [project selected candidate_2000]) by reflexivity.
  assert (H4 : In (project selected candidate_2000) [project selected candidate_2000])
    by (left; reflexivity).
  exact (conj (conj H1 (conj H2 (conj H3 H4)))
              (candidates_mood _ _ _ _ _ _ _ _ H1 H2 H3 H4)).
Defined.

(** An empty-string [mood] option is falsy: it filters nothing, exactly as
    an absent one. *)
Theorem candidates_empty_mood (near : Point -> Z -> Point -> bool) (now : Z)
    (store : list User) (user : User) (d a b : option Z) (lim : option Z) :
  candidates near now store user (mkOptions d a b (Some "") lim) =
  candidates near now store user (mkOptions d a b None lim).
Proof. reflexivity. Qed.

(** Returned candidates carry no [password], [refreshTokens],
    [passwordResetToken] or [emailVerificationToken]; each is a stored user
    whose [email] is kept. *)
Theorem candidates_projection (near : Point -> Z -> Point -> bool) (now : Z)
    (store : list User) (user : User) (options : Options) (l : list User) (c : User) :
  candidates near now store user options = Normal l -> In c l ->
  password c = None /\ refreshTokens c = None /\ passwordResetToken c = None /\
  emailVerificationToken c = None /\
  exists s, In s store /\ _id s = _id c /\ email s = email c.
Proof.
  intros H Hc. apply candidates_exec in H as [q [Hq ->]].
  destruct (findCompatibleUsers_fields _ _ _ _ Hq) as (_ & _ & _ & _ & Hsel & _).
  apply In_exec in Hc as [c0 [-> [Hin _]]]. rewrite Hsel.
  repeat split; try reflexivity. exists c0. auto.
Qed.

Lemma candidates_projection_witness :
  (candidates (fun (_ : Point) (_ : Z) (_ : Point) => true) now_example
     [candidate_2000] requester no_options = Normal [project selected candidate_2000] /\
   In (project selected candidate_2000) [project selected candidate_2000]) /\
  (password (project selected candidate_2000) = None /\
   refreshTokens (project selected candidate_2000) = None /\
   passwordResetToken (project selected candidate_2000) = None /\
   emailVerificationToken (project selected candidate_2000) = None /\
   exists s, In s [candidate_2000] /\ _id s = _id (project selected candidate_2000) /\
             email s = email (project selected candidate_2000)).
Proof.
  assert (H : candidates (fun (_ : Point) (_ : Z) (_ : Point) => true) now_example
                [candidate_2000] requester no_options
              = Normal [project selected candidate_2000]) by reflexivity.
  assert (H2 : In (project selected candidate_2000) [project selected candidate_2000])
    by (left; reflexivity).
  exact (conj (conj H H2) (candidates_projection _ _ _ _ _ _ _ H H2)).
Defined.

(** Below the cap nothing is lost: when the limit is 0 or at least the number
    of stored users the query matches, every matching stored user is
    returned. *)
Theorem candidates_complete (near : Point -> Z -> Point -> bool) (now : Z)
    (store : list User) (user : User) (options : Options) (q : Query) (s : User) :
  findCompatibleUsers now user options = Normal q ->
  q_limit q = 0 \/ (length (List.filter (matches near q) store) <= Z.abs_nat (q_limit q))%nat ->
  In s store -> matches near q s = true ->
  candidates near now store user options = Normal (exec near store q) /\
  In (project (q_select q) s) (exec near store q).
Proof.
  intros Hq Hcap Hs Hm. unfold candidates. rewrite Hq. split; [reflexivity |].
  unfold exec. apply in_map. unfold apply_limit.
  assert (Hin : In s (sort_lastSeen_desc (List.filter (matches near q) store))).
  { apply In_sort_lastSeen_desc, filter_In. auto. }
  destruct (q_limit q =? 0) eqn:E; [exact Hin |].
  destruct Hcap as [H0 | Hle]; [apply Z.eqb_neq in E; contradiction |].
  rewrite firstn_all2; [exact Hin |].
  rewrite length_sort_lastSeen_desc. exact Hle.
Qed.

Lemma candidates_complete_witness :
  (findCompatibleUsers now_example requester no_options = Normal query_example /\
   (q_limit query_example = 0 \/
    (length (List.filter (matches (fun (_ : Point) (_ : Z) (_ : Point) => true) query_example)
               [candidate_2000]) <= Z.abs_nat (q_limit query_example))%nat) /\
   In candidate_2000 [candidate_2000] /\
   matches (fun (_ : Point) (_ : Z) (_ : Point) => true) query_example candidate_2000 = true) /\
  (candidates (fun (_ : Point) (_ : Z) (_ : Point) => true) now_example [candidate_2000]
     requester no_options
   = Normal (exec (fun (_ : Point) (_ : Z) (_ : Point) => true) [candidate_2000] query_example) /\
   In (project (q_select query_example) candidate_2000)
      (exec (fun (_ : Point) (_ : Z) (_ : Point) => true) [candidate_2000] query_example)).
Proof.
  assert (H1 : findCompatibleUsers now_example requester no_options = Normal query_example)
    by reflexivity.
  assert (H4 : matches (fun (_ : Point) (_ : Z) (_ : Point) => true) query_example
                 candidate_2000 = true) by reflexivity.
  assert (H2 : q_limit query_example = 0 \/
    (length (List.filter (matches (fun (_ : Point) (_ : Z) (_ : Point) => true) query_example)
               [candidate_2000]) <= Z.abs_nat (q_limit query_example))%nat).
  { right. apply Nat.leb_le. reflexivity. }
  assert (H3 : In candidate_2000 [candidate_2000]) by (left; reflexivity).
  exact (conj (conj H1 (conj H2 (conj H3 H4))) (candidates_complete _ _ _ _ _ _ _ H1 H2 H3 H4)).
Defined.

(** ** The authentication middleware *)

(** [req.header('Authorization').replace('Bearer ', '')] gives back the
    token [t] of a header ["Bearer " + t], whatever [t]. *)
Theorem replace_first_bearer (t : string) :
  replace_first "Bearer " ("Bearer " ++ t) = t.
Proof.
  reflexivity.
Qed.

(** [authMiddleware] answers 401 "Accès refusé. Token manquant." without
    calling [jwt.verify] when there is no Authorization header, or when the
    header is empty once its "Bearer " is removed. *)
Theorem authMiddleware_missing_token (verify : string -> Completion (option Z))
    (store : list User) (header : option string) :
  (header = None \/ exists h, header = Some h /\ replace_first "Bearer " h = "") ->
  authMiddleware verify store header = Unauthorized "Accès refusé. Token manquant.".
Proof.
  intros [-> | (h & -> & Hh)]; [reflexivity |].
  unfold authMiddleware. cbn [option_map]. rewrite Hh. reflexivity.
Qed.

Lemma authMiddleware_missing_token_witness :
  (Some "Bearer " = None \/
   exists h, Some "Bearer " = Some h /\ replace_first "Bearer " h = "") /\
  authMiddleware verify_example [banned_user] (Some "Bearer ")
  = Unauthorized "Accès refusé. Token manquant.".
Proof.
  assert (H : Some "Bearer " = None \/
              exists h, Some "Bearer " = Some h /\ replace_first "Bearer " h = "").
  { right. exists "Bearer ". split; reflexivity. }
  exact (conj H (authMiddleware_missing_token verify_example [banned_user] _ H)).
Defined.


(** [authMiddleware] lets through the holder of a token that [jwt.verify]
    accepts for a stored user, sent as "Bearer " + token: [next()] is called
    with that user without its password, whatever its [isActive] and
    [isBanned]. *)
Theorem authMiddleware_accepts (verify : string -> Completion (option Z))
    (store : list User) (t : string) (s : User) :
  t <> "" ->
  verify t = Normal (Some (_id s)) ->
  List.find (fun u => _id u =? _id s) store = Some s ->
  authMiddleware verify store (Some ("Bearer " ++ t)) = NextWith (project ["password"] s).
Proof.
  intros Ht Hv Hf. unfold authMiddleware. cbn [option_map].
  rewrite replace_first_bearer.
  assert (T : truthy t = true).
  { unfold truthy. apply negb_true_iff, String.eqb_neq. exact Ht. }
  rewrite T. cbn [negb]. rewrite Hv. unfold findById. rewrite Hf. reflexivity.
Qed.

Lemma authMiddleware_accepts_witness :
  (isBanned banned_user = true /\ isActive banned_user = false) /\
  ("tok" <> "" /\ verify_example "tok" = Normal (Some (_id banned_user)) /\
   List.find (fun u => _id u =? _id banned_user) [banned_user] = Some banned_user) /\
  authMiddleware verify_example [banned_user] (Some ("Bearer " ++ "tok"))
  = NextWith (project ["password"] banned_user).
Proof.
  assert (H1 : "tok" <> "") by discriminate.
  assert (H2 : verify_example "tok" = Normal (Some (_id banned_user))) by reflexivity.
  assert (H3 : List.find (fun u => _id u =? _id banned_user) [banned_user] = Some banned_user)
    by reflexivity.
  split; [split; reflexivity |].
  exact (conj (conj H1 (conj H2 H3))
              (authMiddleware_accepts verify_example [banned_user] "tok" banned_user H1 H2 H3)).
Defined.


(** ** The error handler *)

(** Outside the development environment, no response of [errorHandler]
    carries the error's stack. *)
Theorem errorHandler_no_stack (nodeEnv : option string) (error : JsError) (r : Response) :
  errorHandler nodeEnv error = Normal r ->
  nodeEnv <> Some "development" ->
  forall v, ~ In ("stack", v) (body r).
Proof.
  intros H Henv v Hin. unfold errorHandler in H.
  destruct (String.eqb (e_name error) "ValidationError").
  { destruct (e_errors error); [| discriminate].
    injection H as <-. simpl in Hin.
    destruct Hin as [Hc | [Hc | []]]; inversion Hc. }
  destruct (match e_code error with Some c => c =? 11000 | None => false end).
  { destruct (e_keyValue error); [| discriminate].
    injection H as <-. simpl in Hin.
    destruct Hin as [Hc | [Hc | []]]; inversion Hc. }
  destruct (String.eqb (e_name error) "JsonWebTokenError").
  { injection H as <-. simpl in Hin. destruct Hin as [Hc | []]; inversion Hc. }
  destruct (String.eqb (e_name error) "TokenExpiredError").
  { injection H as <-. simpl in Hin. destruct Hin as [Hc | []]; inversion Hc. }
  injection H as <-. simpl in Hin.
  destruct (option_eq_dec nodeEnv (Some "development")) as [E | _]; [contradiction |].
  simpl in Hin. destruct Hin as [Hc | []]; inversion Hc.
Qed.

Definition server_error : JsError :=
  mkJsError "Error" None None None (Some 503) "down" "Error: down\n    at f".

Lemma errorHandler_no_stack_witness :
  errorHandler (Some "production") server_error
  = Normal (mkResponse 503 [("error", JStr "down")]) /\
  Some "production" <> Some "development" /\
  forall v, ~ In ("stack", v) (body (mkResponse 503 [("error", JStr "down")])).
Proof.
  assert (H1 : errorHandler (Some "production") server_error
               = Normal (mkResponse 503 [("error", JStr "down")])) by reflexivity.
  assert (H2 : Some "production" <> Some "development") by discriminate.
  exact (conj H1 (conj H2 (errorHandler_no_stack _ _ _ H1 H2))).
Defined.

(** A [JsonWebTokenError] or a [TokenExpiredError] whose [code] is not
    11000 gets a 401 with a fixed message, whatever its message, status and
    stack and whatever the environment. *)
Theorem errorHandler_jwt (nodeEnv : option string) (error : JsError) :
  e_code error <> Some 11000 ->
  (e_name error = "JsonWebTokenError" ->
   errorHandler nodeEnv error = Normal (mkResponse 401 [("error", JStr "Token invalide")])) /\
  (e_name error = "TokenExpiredError" ->
   errorHandler nodeEnv error = Normal (mkResponse 401 [("error", JStr "Token expiré")])).
Proof.
  intros Hc.
  assert (Hcode : match e_code error with Some c => c =? 11000 | None => false end = false).
  { destruct (e_code error) as [c |]; [| reflexivity].
    apply Z.eqb_neq. intros ->. apply Hc. reflexivity. }
  unfold errorHandler. rewrite Hcode.
  split; intros Hn; rewrite Hn; reflexivity.
Qed.

Definition expired_error : JsError :=
  mkJsError "TokenExpiredError" None None None (Some 500) "jwt expired" "".

Lemma errorHandler_jwt_witness :
  e_code expired_error <> Some 11000 /\
  errorHandler (Some "development") expired_error
  = Normal (mkResponse 401 [("error", JStr "Token expiré")]).
Proof.
  assert (H : e_code expired_error <> Some 11000) by discriminate.
  exact (conj H (proj2 (errorHandler_jwt (Some "development") expired_error H) eq_refl)).
Defined.

(** A duplicate-key error (code 11000) that is not a [ValidationError]
    gets a 400 naming the first key of [keyValue], whatever its name; when
    [keyValue] is undefined the handler itself throws a [TypeError]. *)
Theorem errorHandler_duplicate (nodeEnv : option string) (error : JsError) :
  e_name error <> "ValidationError" ->
  e_code error = Some 11000 ->
  (e_keyValue error = None -> errorHandler nodeEnv error = Throw "TypeError") /\
  (forall k rest, e_keyValue error = Some (k :: rest) ->
   errorHandler nodeEnv error
   = Normal (mkResponse 400 [("error", JStr (k ++ " déjà utilisé")); ("field", JStr k)])).
Proof.
  intros Hn Hc. apply String.eqb_neq in Hn.
  unfold errorHandler. rewrite Hn, Hc. cbn [Z.eqb Pos.eqb].
  split; [intros -> | intros k rest ->]; reflexivity.
Qed.

Definition duplicate_email : JsError :=
  mkJsError "JsonWebTokenError" None (Some 11000) (Some ["email"]) None "E11000" "".

Lemma errorHandler_duplicate_witness :
  (e_name duplicate_email <> "ValidationError" /\ e_code duplicate_email = Some 11000) /\
  errorHandler None duplicate_email
  = Normal (mkResponse 400 [("error", JStr ("email" ++ " déjà utilisé")); ("field", JStr "email")]).
Proof.
  assert (H1 : e_name duplicate_email <> "ValidationError") by discriminate.
  assert (H2 : e_code duplicate_email = Some 11000) by reflexivity.
  exact (conj (conj H1 H2)
              (proj2 (errorHandler_duplicate None duplicate_email H1 H2) "email" [] eq_refl)).
Defined.

(** ** The [/me] routes *)

(** [PUT /me] writes no document but the requester's. *)
Theorem putMe_frame {V : Type} (in_schema : string -> bool)
    (runValidators : gmap string V -> gmap string V -> bool)
    (apply_operators : gmap string V -> gmap string V -> gmap string V)
    (now : V) (store : gmap Z (gmap string V)) (id : Z) (body : gmap string V) (id' : Z) :
  id' <> id ->
  (putMe in_schema runValidators apply_operators now store id body).1 !! id' = store !! id'.
Proof.
  intros Hne. unfold putMe.
  destruct (store !! id); [| reflexivity].
  destruct (runValidators _ _); [| reflexivity].
  simpl. apply lookup_insert_ne. congruence.
Qed.

Lemma putMe_frame_witness :
  (2 <> 1) /\
  (putMe in_schema_example (fun _ _ => true) (fun ops d => ops ∪ d) "2026-10-15T06:00:00.000Z"
     store_example 1 {[ "isBanned" := "false"; "$unset" := "email" ]}).1 !! 2
  = store_example !! 2.
Proof.
  assert (H : 2 <> 1) by lia.
  exact (conj H (putMe_frame in_schema_example (fun _ _ => true) (fun ops d => ops ∪ d)
                   "2026-10-15T06:00:00.000Z" _ 1 _ 2 H)).
Defined.



(** No response of [GET /me] or [PUT /me] contains a password. *)
Theorem me_routes_no_password {V : Type} (in_schema : string -> bool)
    (runValidators : gmap string V -> gmap string V -> bool)
    (apply_operators : gmap string V -> gmap string V -> gmap string V)
    (now : V) (store : gmap Z (gmap string V)) (id : Z) (body : gmap string V) :
  match getMe store id with RJson (Some r) => r !! "password" = None | _ => True end /\
  match (putMe in_schema runValidators apply_operators now store id body).2 with
  | RJson (Some r) => r !! "password" = None
  | _ => True
  end.
Proof.
  split.
  - unfold getMe. destruct (store !! id); simpl; [apply lookup_delete_eq | exact I].
  - unfold putMe. destruct (store !! id); [| exact I].
    destruct (runValidators _ _); simpl; [apply lookup_delete_eq | exact I].
Qed.
